(** * Fake_News_Detection: the Streamlit page [app.py]

    A shallow embedding of [predict_fake_news], [explain_with_huggingface]
    and of the page script that calls them, followed by the properties of
    the explanation-with-fallback routine and of the input form.

    Conventions of the embedding.
    - A Python [str] is the list of its code points ([pystr]); literals of
      the source are written as Rocq strings and decoded from UTF-8 by [u].
    - The values that [response.json()] can produce, and hence everything
      the explainer can return, are the Python values of [pyval].
    - Effects (HTTP requests, Streamlit output, the call of the model) are
      recorded in a trace of [event]s; an exception is the [Raised] outcome
      of a computation in [Py].  Only subclasses of [Exception] are
      modelled: these are the ones [except Exception] catches.
    - The outside world (the secrets mapping, the remote endpoint, the
      pre-trained model) is a [world] record; every theorem quantifies over
      it.
    - [st.cache_data] is not modelled: the theorems are about one execution
      of the decorated function's body. *)

From Stdlib Require Import ZArith NArith String Ascii List Floats.PrimFloat.
From stdpp Require Import gmap strings list fin_maps.

Set Warnings "-register-all,-inexact-float".
Local Open Scope Z_scope.

(* ===================================================================== *)
(** ** Python strings *)
(* ===================================================================== *)

(** A [str]: the sequence of its Unicode code points. *)
Abbreviation pystr := (list N).

Definition bytes_of (s : string) : list N :=
  map N_of_ascii (list_ascii_of_string s).

Definition cont (b : N) : N := N.land b 63.

(** UTF-8 decoding of the bytes of a source literal (1 to 4 byte forms). *)
Fixpoint utf8_decode (bs : list N) : pystr :=
  match bs with
  | [] => []
  | b0 :: bs1 =>
    if (b0 <? 128)%N then b0 :: utf8_decode bs1 else
    match bs1 with
    | [] => []
    | b1 :: bs2 =>
      if (b0 <? 224)%N then (N.land b0 31 * 64 + cont b1)%N :: utf8_decode bs2 else
      match bs2 with
      | [] => []
      | b2 :: bs3 =>
        if (b0 <? 240)%N
        then ((N.land b0 15 * 64 + cont b1) * 64 + cont b2)%N :: utf8_decode bs3
        else
        match bs3 with
        | [] => []
        | b3 :: bs4 =>
          (((N.land b0 7 * 64 + cont b1) * 64 + cont b2) * 64 + cont b3)%N
            :: utf8_decode bs4
        end
      end
    end
  end.

(** [u "..."] is the Python literal ["..."]. *)
Definition u (s : string) : pystr := utf8_decode (bytes_of s).

(** [not s] for a [str]. *)
Definition str_is_empty (s : pystr) : bool :=
  match s with [] => true | _ :: _ => false end.

(** The characters [str.strip()] removes: CPython's [_PyUnicode_IsWhitespace]. *)
Definition is_space (c : N) : bool :=
  ((9 <=? c) && (c <=? 13) || (28 <=? c) && (c <=? 32)
   || (c =? 133) || (c =? 160) || (c =? 5760)
   || (8192 <=? c) && (c <=? 8202)
   || (c =? 8232) || (c =? 8233) || (c =? 8239) || (c =? 8287)
   || (c =? 12288))%N.

Fixpoint lstrip (s : pystr) : pystr :=
  match s with
  | [] => []
  | c :: s' => if is_space c then lstrip s' else s
  end.

Definition rstrip (s : pystr) : pystr := rev (lstrip (rev s)).

(** [s.strip()] *)
Definition strip (s : pystr) : pystr := rstrip (lstrip s).

(** [s.split(sep)] for a one-character separator. *)
Fixpoint split_on (sep : N) (s : pystr) : list pystr :=
  match s with
  | [] => [[]]
  | c :: s' =>
    if (c =? sep)%N then [] :: split_on sep s'
    else match split_on sep s' with
         | l :: ls => (c :: l) :: ls
         | [] => [[c]]
         end
  end.

(** [s.startswith(p)] and [sub in s], used to state properties of texts. *)
Fixpoint startswith (s p : pystr) {struct p} : bool :=
  match p, s with
  | [], _ => true
  | c :: p', d :: s' => (c =? d)%N && startswith s' p'
  | _ :: _, [] => false
  end.

Fixpoint contains (s sub : pystr) : bool :=
  startswith s sub ||
  match s with
  | [] => false
  | _ :: s' => contains s' sub
  end.

(* ===================================================================== *)
(** ** Python values, exceptions, computations *)
(* ===================================================================== *)

(** What [json.loads] builds: None, bool, int, float, str, list, dict
    (a JSON object becomes a dict with [str] keys, the last duplicate
    winning, hence a finite map). *)
Inductive pyval : Type :=
| PNone
| PBool (b : bool)
| PInt (z : Z)
| PFloat (f : float)
| PStr (s : pystr)
| PList (l : list pyval)
| PDict (m : gmap pystr pyval).

(** The exceptions that can occur, all of them subclasses of [Exception]. *)
Inductive exn : Type :=
| Exception (arg : pyval)          (* [raise Exception(arg)] *)
| KeyError (key : pyval)
| IndexError
| TypeError
| AttributeError
| RequestException (msg : pystr)   (* raised inside [requests.post] *)
| JSONDecodeError (msg : pystr).   (* raised inside [response.json()] *)

Inductive outcome (A : Type) : Type :=
| Value (a : A)
| Raised (e : exn).
Arguments Value {A} a.
Arguments Raised {A} e.

Inductive http_method := GET | POST.

(** The arguments of one [requests.post(url, headers=, json=, timeout=)]. *)
Record request := {
  method : http_method;
  url : pystr;
  headers : gmap pystr pystr;
  json : pyval;
  timeout : Z
}.

(** A [requests.Response]: the code only ever calls [.json()] on it. *)
Record response := {
  status_code : Z;
  response_json : outcome pyval
}.

(** The messages passed to [st.warning]. *)
Inductive warning : Type :=
| ApiFailed (e : exn)              (* f"Hugging Face API failed: {e}" *)
| InputRequired.                   (* "Please enter a news article to analyze." *)

(** The elements the result column renders; each constructor stands for
    one HTML template of the source and carries its interpolated fields. *)
Inductive element : Type :=
| Subheader (title : pystr)
| AwaitingInput
| VerdictBox (verdict_bg emoji verdict_color verdict_text : pystr)
| ReasoningBox (ai_bg reasoning_label formatted_html : pystr)
| ReadingTip.

Inductive event : Type :=
| EvPredict (article : pystr)       (* vectorizer.transform + model.predict *)
| EvExplain (article : pystr) (result : Z)
| EvPost (rq : request)             (* one HTTP request sent *)
| EvWarning (w : warning)           (* st.warning *)
| EvElement (e : element).          (* st.subheader / st.markdown *)

(** A computation: the events it performed and how it ended. *)
Definition Py (A : Type) : Type := list event * outcome A.

Definition ret {A} (a : A) : Py A := ([], Value a).
Definition raise {A} (e : exn) : Py A := ([], Raised e).
Definition emit (ev : event) : Py unit := ([ev], Value tt).

Definition bind {A B} (m : Py A) (k : A -> Py B) : Py B :=
  match m with
  | (t, Value a) => let '(t', r) := k a in (t ++ t', r)
  | (t, Raised e) => (t, Raised e)
  end.

(** [try: body  except Exception as e: handler e] *)
Definition try_except {A} (body : Py A) (handler : exn -> Py A) : Py A :=
  match body with
  | (t, Raised e) => let '(t', r) := handler e in (t ++ t', r)
  | (t, Value a) => (t, Value a)
  end.

Notation "'let*' x ':=' m 'in' k" := (bind m (fun x => k))
  (at level 10, x pattern, m at level 100, k at level 200).

Definition trace {A} (m : Py A) : list event := fst m.
Definition result_of {A} (m : Py A) : outcome A := snd m.

(** [x[0]] *)
Definition getitem_0 (x : pyval) : Py pyval :=
  match x with
  | PList [] => raise IndexError
  | PList (v :: _) => ret v
  | PStr [] => raise IndexError
  | PStr (c :: _) => ret (PStr [c])
  | PDict _ => raise (KeyError (PInt 0))   (* the keys are all [str] *)
  | PNone | PBool _ | PInt _ | PFloat _ => raise TypeError
  end.

(** [x[k]] for a [str] key [k] *)
Definition getitem_key (x : pyval) (k : pystr) : Py pyval :=
  match x with
  | PDict m =>
    match m !! k with
    | Some v => ret v
    | None => raise (KeyError (PStr k))
    end
  | _ => raise TypeError
  end.

(** [isinstance(x, dict) and k in x] *)
Definition is_dict_with (x : pyval) (k : pystr) : bool :=
  match x with
  | PDict m => bool_decide (is_Some (m !! k))
  | _ => false
  end.

(** [d[k]] on a [dict] of strings. *)
Definition header_getitem (d : gmap pystr pystr) (k : pystr) : Py pystr :=
  match d !! k with
  | Some v => ret v
  | None => raise (KeyError (PStr k))
  end.

(** [x.strip()]: only a [str] has the method. *)
Definition str_strip (x : pyval) : Py pystr :=
  match x with
  | PStr s => ret (strip s)
  | _ => raise AttributeError
  end.

(* ===================================================================== *)
(** ** The outside world *)
(* ===================================================================== *)

(** [secrets] is the mapping behind [st.secrets] once it is loaded; a
    deployment with no secrets file at all, where Streamlit itself raises
    on access, is outside the model. *)
Record world := {
  secrets : gmap pystr pystr;              (* st.secrets *)
  remote : request -> outcome response;    (* what requests.post meets *)
  model_predict : pystr -> Z               (* model.predict(vectorizer.transform([a]))[0] *)
}.

(** [st.secrets.get(key, dflt)] *)
Definition secrets_get (w : world) (key dflt : pystr) : pystr :=
  default dflt (secrets w !! key).

(** [requests.post(...)]: the request goes out, then the world answers. *)
Definition requests_post (w : world) (rq : request) : Py response :=
  let* _ := emit (EvPost rq) in
  match remote w rq with
  | Value r => ret r
  | Raised e => raise e
  end.

(** [response.json()] *)
Definition json_of (r : response) : Py pyval :=
  match response_json r with
  | Value v => ret v
  | Raised e => raise e
  end.

(* ===================================================================== *)
(** ** ML prediction *)
(* ===================================================================== *)

Definition predict_fake_news (w : world) (article : pystr) : Py Z :=
  let* _ := emit (EvPredict article) in
  ret (model_predict w article).

(* ===================================================================== *)
(** ** Hugging Face explanation *)
(* ===================================================================== *)

(** The label interpolated in the prompt and shown as the verdict. *)
Definition label_text (result : Z) : pystr :=
  if result =? 1 then u "REAL" else u "FAKE".

Definition prompt (article : pystr) (result : Z) : pystr :=
  u "
        Analyze the following news article and determine if it is "
  ++ label_text result ++
  u ".
        Provide reasoning in points under each section:

        1. Summary 📄
        2. Tone ✍️
        3. Credibility 🔍
        4. Evidence 📊
        5. Conclusion 🎯

        Article:
        "
  ++ article ++
  u "

        Format your response in points under each section.
        ".

Definition API_URL : pystr :=
  u "https://api-inference.huggingface.co/models/facebook/blenderbot-400M-distill".

Definition reasoning_real : pystr :=
  u "1. Summary 📄: ✅ Article is factually correct.
2. Tone ✍️: Neutral.
3. Credibility 🔍: Reliable sources.
4. Evidence 📊: Supported by data.
5. Conclusion 🎯: Likely real; trustworthy.".

Definition reasoning_fake : pystr :=
  u "1. Summary 📄: 🚨 Misleading claims.
2. Tone ✍️: Sensational.
3. Credibility 🔍: Unreliable sources.
4. Evidence 📊: Unsupported.
5. Conclusion 🎯: Likely fake; verify before trusting.".

(** The [except] branch's choice of text. *)
Definition fallback_reasoning (result : Z) : pystr :=
  if result =? 1 then reasoning_real else reasoning_fake.

(** The header dictionary built on line 74. *)
Definition auth_headers (w : world) : gmap pystr pystr :=
  {[ u "Authorization" := u "Bearer " ++ secrets_get w (u "HF_API_KEY") (u "") ]}.

(** The request of lines 79-84. *)
Definition hf_request (w : world) (article : pystr) (result : Z)
    (max_tokens : Z) (temperature : float) : request :=
  {| method := POST;
     url := API_URL;
     headers := auth_headers w;
     json := PDict {[ u "inputs" := PStr (prompt article result);
                      u "parameters" :=
                        PDict {[ u "max_new_tokens" := PInt max_tokens;
                                 u "temperature" := PFloat temperature ]} ]};
     timeout := 60 |}.

(** The body of the [try] block.  The result is the pair
    [(reasoning_text, is_dynamic)]. *)
Definition explain_try (w : world) (article : pystr) (result : Z)
    (max_tokens : Z) (temperature : float) : Py (pyval * bool) :=
  let headers := auth_headers w in
  let* authorization := header_getitem headers (u "Authorization") in
  let* _ :=
    if str_is_empty authorization
    then raise (Exception (PStr (u "HF_API_KEY not found in Streamlit secrets!")))
    else ret tt in
  let* response := requests_post w (hf_request w article result max_tokens temperature) in
  let* data := json_of response in
  let* _ :=
    if is_dict_with data (u "error")
    then let* err := getitem_key data (u "error") in raise (Exception err)
    else ret tt in
  let* first := getitem_0 data in
  let* generated_text := getitem_key first (u "generated_text") in
  ret (generated_text, true).

(** The [except Exception as e] block. *)
Definition explain_except (result : Z) (e : exn) : Py (pyval * bool) :=
  let* _ := emit (EvWarning (ApiFailed e)) in
  ret (PStr (fallback_reasoning result), false).

(** [def explain_with_huggingface(article, result, max_tokens=500,
    temperature=0.7)]; [None] stands for an argument left out of the call. *)
Definition explain_with_huggingface (w : world) (article : pystr) (result : Z)
    (max_tokens : option Z) (temperature : option float) : Py (pyval * bool) :=
  let max_tokens := default 500 max_tokens in
  let temperature := default 0.7%float temperature in
  let* _ := emit (EvExplain article result) in
  try_except (explain_try w article result max_tokens temperature)
             (explain_except result).

(* ===================================================================== *)
(** ** The page: input on the left, verdict and reasoning on the right *)
(* ===================================================================== *)

Definition paragraph (line : pystr) : pystr :=
  u "<p style='margin:0; font-weight:bold; padding:2px 0;'>" ++ line ++ u "</p>".

(** One run of the layout part of the script (lines 116-186), for the
    content [news_text] of the text area and [clicked], the value of
    [st.button("Check News")].  The page header rendered before it (title
    and the About box) does not depend on the input and is left out. *)
Definition page (w : world) (news_text : pystr) (clicked : bool) : Py unit :=
  (* with col_input *)
  let* _ :=
    if clicked
    then if str_is_empty (strip news_text)
         then emit (EvWarning InputRequired)
         else ret tt
    else ret tt in
  (* with col_result *)
  let* _ := emit (EvElement (Subheader (u "🏷️ Verdict & AI Reasoning"))) in
  if str_is_empty (strip news_text)
  then emit (EvElement AwaitingInput)
  else
    let* result := predict_fake_news w news_text in
    let verdict_bg := if result =? 1 then u "#d4edda" else u "#f8d7da" in
    let ai_bg := if result =? 1 then u "#e6f9e6" else u "#ffe6e6" in
    let emoji := if result =? 1 then u "✅" else u "🚨" in
    let verdict_text := label_text result in
    let verdict_color := if result =? 1 then u "green" else u "red" in
    let* _ := emit (EvElement (VerdictBox verdict_bg emoji verdict_color verdict_text)) in
    let* _ := emit (EvElement (Subheader (u "🤖 AI Reasoning"))) in
    let* answer := explain_with_huggingface w news_text result None None in
    let '(explanation, is_dynamic) := answer in
    let* stripped := str_strip explanation in
    let lines := split_on 10 stripped in
    let formatted_html := concat (map paragraph lines) in
    let reasoning_label :=
      if is_dynamic then u "Dynamic AI reasoning (Hugging Face)"
      else u "Offline fallback reasoning" in
    let* _ := emit (EvElement (ReasoningBox ai_bg reasoning_label formatted_html)) in
    emit (EvElement ReadingTip).

(* ===================================================================== *)
(** ** Specification vocabulary *)
(* ===================================================================== *)

(** The tag of the spec's [Explanation] record, read off [is_dynamic]. *)
Inductive source := REMOTE | FALLBACK.

Definition source_of (is_dynamic : bool) : source :=
  if is_dynamic then REMOTE else FALLBACK.

(** A non-empty [str]. *)
Definition nonempty_str (v : pyval) : Prop :=
  exists s, v = PStr s /\ s <> [].

(** The requests a trace sent, in order. *)
Fixpoint posts (t : list event) : list request :=
  match t with
  | [] => []
  | EvPost rq :: t' => rq :: posts t'
  | _ :: t' => posts t'
  end.

(** The credential is absent from the configuration. *)
Definition credential_absent (w : world) : Prop :=
  secrets w !! u "HF_API_KEY" = None.

(** The value found where the service is expected to put the generated
    text: the [generated_text] entry of the first element of an array. *)
Definition generated_text_of (data : pyval) : option pyval :=
  match data with
  | PList (PDict m :: _) => m !! u "generated_text"
  | _ => None
  end.

(** What the endpoint's answer yields: the generated text of a response
    whose body parses, if there is one. *)
Definition served (answer : outcome response) : option pyval :=
  match answer with
  | Value r =>
    match response_json r with
    | Value data => generated_text_of data
    | Raised _ => None
    end
  | Raised _ => None
  end.

(** Lines 87-90, as a function of the parsed body. *)
Definition read_data (data : pyval) : Py (pyval * bool) :=
  let* _ :=
    if is_dict_with data (u "error")
    then let* err := getitem_key data (u "error") in raise (Exception err)
    else ret tt in
  let* first := getitem_0 data in
  let* generated_text := getitem_key first (u "generated_text") in
  ret (generated_text, true).

(** The request the spec describes, for a given secret, prompt and
    generation controls. *)
Definition described_request (secret prompt_text : pystr)
    (max_new_tokens : Z) (temp : float) : request :=
  {| method := POST;
     url := API_URL;
     headers := {[ u "Authorization" := u "Bearer " ++ secret ]};
     json :=
       PDict {[ u "inputs" := PStr prompt_text;
                u "parameters" :=
                  PDict {[ u "max_new_tokens" := PInt max_new_tokens;
                           u "temperature" := PFloat temp ]} ]};
     timeout := 60 |}.

(** [explain] in the spec's terms: the [Explanation] returned, with its
    source tag, or the exception that escaped. *)
Definition explain (w : world) (article : pystr) (result : Z)
    (max_tokens : option Z) (temperature : option float) : outcome (pyval * source) :=
  match result_of (explain_with_huggingface w article result max_tokens temperature) with
  | Value (text, is_dynamic) => Value (text, source_of is_dynamic)
  | Raised e => Raised e
  end.

(** The request [explain] sends. *)
Definition request_of (w : world) (article : pystr) (result : Z)
    (max_tokens : option Z) (temperature : option float) : request :=
  hf_request w article result (default 500 max_tokens) (default 0.7%float temperature).

(** The ways an exchange with the endpoint can fail, named after the
    spec's taxonomy.  The argument is what [requests.post] meets. *)
Inductive failure : outcome response -> Prop :=
| network_failure e :
    (* connection error or timeout: [requests.post] raises *)
    failure (Raised e)
| auth_failure status m :
    (* the service rejects the token: 401 or 403 with an error object *)
    status = 401 \/ status = 403 ->
    is_Some (m !! u "error") ->
    failure (Value {| status_code := status; response_json := Value (PDict m) |})
| malformed_body status e :
    (* the body is not JSON: [response.json()] raises *)
    failure (Value {| status_code := status; response_json := Raised e |})
| embedded_error status m :
    is_Some (m !! u "error") ->
    failure (Value {| status_code := status; response_json := Value (PDict m) |})
| empty_array status :
    failure (Value {| status_code := status; response_json := Value (PList []) |})
| missing_field status m rest :
    m !! u "generated_text" = None ->
    failure (Value {| status_code := status;
                      response_json := Value (PList (PDict m :: rest)) |})
| unexpected_shape status data :
    (* any other body without a generated text at the expected place *)
    generated_text_of data = None ->
    failure (Value {| status_code := status; response_json := Value data |}).

(** The texts the verdict boxes of a trace display. *)
Fixpoint verdicts (t : list event) : list pystr :=
  match t with
  | [] => []
  | EvElement (VerdictBox _ _ _ verdict_text) :: t' => verdict_text :: verdicts t'
  | _ :: t' => verdicts t'
  end.

(** [explain_with_huggingface] returns a pair whose text is a non-empty
    [str]. *)
Definition returns_nonempty_text (w : world) (article : pystr) (result : Z)
    (max_tokens : option Z) (temperature : option float) : Prop :=
  exists t text is_dynamic,
    explain_with_huggingface w article result max_tokens temperature
    = (t, Value (text, is_dynamic))
    /\ nonempty_str text.

(** Two sample articles. *)
Definition article_rates : pystr := u "The central bank cut rates by 25 basis points.".
Definition article_moon : pystr := u "Scientists confirm the moon is hollow!".

(* ===================================================================== *)
(** ** Sample worlds *)
(* ===================================================================== *)

Definition answering (status : Z) (body : outcome pyval) : request -> outcome response :=
  fun _ => Value {| status_code := status; response_json := body |}.

Definition generated (text : pystr) : pyval :=
  PList [PDict {[ u "generated_text" := PStr text ]}].

Definition configured : gmap pystr pystr := {[ u "HF_API_KEY" := u "hf_token" ]}.

(** The endpoint cannot be reached. *)
Definition w_offline : world :=
  {| secrets := configured;
     remote := fun _ => Raised (RequestException (u "Connection refused"));
     model_predict := fun _ => 0 |}.

(** No credential configured, and the endpoint serves a text all the same. *)
Definition w_nokey_served : world :=
  {| secrets := ∅;
     remote := answering 200 (Value (generated (u "The article cites official figures.")));
     model_predict := fun _ => 1 |}.

(** The endpoint serves a text. *)
Definition w_served : world :=
  {| secrets := configured;
     remote := answering 200 (Value (generated (u "Both sources are named.")));
     model_predict := fun _ => 1 |}.

(** The endpoint serves an empty text. *)
Definition w_empty_text : world :=
  {| secrets := configured;
     remote := answering 200 (Value (generated (u "")));
     model_predict := fun _ => 1 |}.

(** The endpoint reports that the model is loading. *)
Definition w_loading : world :=
  {| secrets := configured;
     remote := answering 503
                 (Value (PDict {[ u "error" := PStr (u "Model is currently loading") ]}));
     model_predict := fun _ => 0 |}.

(** The endpoint serves [null] where the text is expected. *)
Definition w_null_text : world :=
  {| secrets := configured;
     remote := answering 200 (Value (PList [PDict {[ u "generated_text" := PNone ]}]));
     model_predict := fun _ => 1 |}.

(** The endpoint answers with an empty array. *)
Definition w_empty_array : world :=
  {| secrets := configured;
     remote := answering 200 (Value (PList []));
     model_predict := fun _ => 0 |}.

(** The endpoint cannot be reached and the model answers 1. *)
Definition w_offline_real : world :=
  {| secrets := configured;
     remote := fun _ => Raised (RequestException (u "Connection refused"));
     model_predict := fun _ => 1 |}.

(** A model that answers 2, a value that is neither 0 nor 1. *)
Definition w_other_class : world :=
  {| secrets := configured;
     remote := fun _ => Raised (RequestException (u "Read timed out."));
     model_predict := fun _ => 2 |}.

(* ===================================================================== *)
(** ** Vocabulary for the page *)
(* ===================================================================== *)



Fixpoint warnings (t : list event) : list warning :=
  match t with
  | [] => []
  | EvWarning wn :: t' => wn :: warnings t'
  | _ :: t' => warnings t'
  end.

(** [isinstance(v, str)] *)
Definition is_str (v : pyval) : bool :=
  match v with PStr _ => true | _ => false end.

(** ["\n".join(lines)] *)
Fixpoint join_lines (lines : list pystr) : pystr :=
  match lines with
  | [] => []
  | [l] => l
  | l :: ls => l ++ 10%N :: join_lines ls
  end.

(** The verdict box of lines 137-157 for a model output. *)
Definition verdict_box (result : Z) : element :=
  VerdictBox (if result =? 1 then u "#d4edda" else u "#f8d7da")
             (if result =? 1 then u "✅" else u "🚨")
             (if result =? 1 then u "green" else u "red")
             (label_text result).

(** The reasoning box of lines 162-176 for an explanation that is a
    [str]. *)
Definition reasoning_box (result : Z) (is_dynamic : bool) (explanation : pystr) : element :=
  ReasoningBox (if result =? 1 then u "#e6f9e6" else u "#ffe6e6")
               (if is_dynamic then u "Dynamic AI reasoning (Hugging Face)"
                else u "Offline fallback reasoning")
               (concat (map paragraph (split_on 10 (strip explanation)))).

(** What the result column shows for a text that is not blank, up to the
    call of the explainer. *)
Definition page_head (w : world) (news_text : pystr) : list event :=
  [ EvElement (Subheader (u "🏷️ Verdict & AI Reasoning"));
    EvPredict news_text;
    EvElement (verdict_box (model_predict w news_text));
    EvElement (Subheader (u "🤖 AI Reasoning")) ].

(** Two answers of the endpoint that differ at most in the status code. *)
Definition same_body (a b : outcome response) : Prop :=
  match a, b with
  | Value r1, Value r2 => response_json r1 = response_json r2
  | Raised e1, Raised e2 => e1 = e2
  | _, _ => False
  end.

(** More sample worlds. *)

(** The text of [w_served], sent with status 500. *)
Definition w_served_500 : world :=
  {| secrets := configured;
     remote := answering 500 (Value (generated (u "Both sources are named.")));
     model_predict := fun _ => 1 |}.

(** The endpoint answers with a bare object that holds the text. *)
Definition w_bare_object : world :=
  {| secrets := configured;
     remote := answering 200
                 (Value (PDict {[ u "generated_text" := PStr (u "Both sources are named.") ]}));
     model_predict := fun _ => 0 |}.

(** The first element of the array has no [generated_text]. *)
Definition w_missing_field : world :=
  {| secrets := configured;
     remote := answering 200 (Value (PList [PDict {[ u "summary_text" := PStr (u "Short.") ]}]));
     model_predict := fun _ => 0 |}.

(** The body is an HTML error page. *)
Definition w_malformed : world :=
  {| secrets := configured;
     remote := answering 502 (Raised (JSONDecodeError (u "Expecting value")));
     model_predict := fun _ => 0 |}.

(** The served text spans two lines and carries markup. *)
Definition w_two_lines : world :=
  {| secrets := configured;
     remote := answering 200 (Value (generated (u " <b>Sourced</b>
Neutral tone ")));
     model_predict := fun _ => 1 |}.

(* ===================================================================== *)
(** ** Basic facts *)
(* ===================================================================== *)

Lemma bind_ret {A B} (a : A) (k : A -> Py B) : bind (ret a) k = k a.
Proof. unfold bind, ret. now destruct (k a). Qed.

Lemma bind_raise {A B} (e : exn) (k : A -> Py B) : bind (raise e) k = raise e.
Proof. reflexivity. Qed.

Lemma bind_emit {B} (ev : event) (k : unit -> Py B) :
  bind (emit ev) k = (ev :: trace (k tt), result_of (k tt)).
Proof. unfold bind, emit, trace, result_of. now destruct (k tt). Qed.

Lemma try_except_value {A} t (a : A) h : try_except (t, Value a) h = (t, Value a).
Proof. reflexivity. Qed.

Lemma try_except_raised {A} t e (h : exn -> Py A) :
  try_except (t, Raised e) h = (t ++ trace (h e), result_of (h e)).
Proof. unfold try_except, trace, result_of. now destruct (h e). Qed.

Lemma bearer_nonempty (key : pystr) : str_is_empty (u "Bearer " ++ key) = false.
Proof. reflexivity. Qed.

Lemma authorization_lookup (w : world) :
  header_getitem (auth_headers w) (u "Authorization")
  = ret (u "Bearer " ++ secrets_get w (u "HF_API_KEY") (u "")).
Proof.
  unfold header_getitem, auth_headers.
  now rewrite lookup_singleton_eq.
Qed.

(** The guard of lines 76-77 never fires: the [try] block always reaches
    the request. *)
Lemma explain_try_unfold w article result max_tokens temperature :
  explain_try w article result max_tokens temperature =
  let* response := requests_post w (hf_request w article result max_tokens temperature) in
  let* data := json_of response in
  let* _ :=
    if is_dict_with data (u "error")
    then let* err := getitem_key data (u "error") in raise (Exception err)
    else ret tt in
  let* first := getitem_0 data in
  let* generated_text := getitem_key first (u "generated_text") in
  ret (generated_text, true).
Proof.
  unfold explain_try. rewrite authorization_lookup, bind_ret.
  rewrite bearer_nonempty. now rewrite bind_ret.
Qed.

Lemma explain_try_read w article result max_tokens temperature :
  explain_try w article result max_tokens temperature =
  let* response := requests_post w (hf_request w article result max_tokens temperature) in
  let* data := json_of response in
  read_data data.
Proof. apply explain_try_unfold. Qed.

(** Reading the parsed body succeeds exactly on the expected shape, and
    performs no effect either way. *)
Lemma read_data_cases (data : pyval) :
  match generated_text_of data with
  | Some v => read_data data = ret (v, true)
  | None => exists e, read_data data = raise e
  end.
Proof.
  unfold read_data.
  destruct data as [ | b | z | f | [ | c s ] | [ | first rest ] | m ];
    unfold generated_text_of, is_dict_with, getitem_0;
    try (eexists; rewrite ?bind_ret, ?bind_raise; reflexivity).
  - rewrite !bind_ret. unfold getitem_key.
    destruct first as [ | b | z | f | s | l | m ];
      try (eexists; rewrite ?bind_raise; reflexivity).
    destruct (m !! u "generated_text") as [v | ];
      [ now rewrite bind_ret | eexists; now rewrite bind_raise ].
  - unfold getitem_key.
    destruct (m !! u "error") as [err | ] eqn:He; eexists.
    + rewrite bool_decide_eq_true_2 by eauto.
      rewrite bind_ret, !bind_raise. reflexivity.
    + rewrite bool_decide_eq_false_2 by (intros [? ?]; congruence).
      rewrite bind_ret, bind_raise. reflexivity.
Qed.

Lemma bind_value {A B} t (a : A) (k : A -> Py B) :
  bind (t, Value a) k = (t ++ trace (k a), result_of (k a)).
Proof. unfold bind, trace, result_of. now destruct (k a). Qed.

Lemma bind_raised {A B} t e (k : A -> Py B) : bind (t, Raised e) k = (t, Raised e).
Proof. reflexivity. Qed.

Lemma requests_post_eq (w : world) (rq : request) :
  requests_post w rq = ([EvPost rq], remote w rq).
Proof.
  unfold requests_post. rewrite bind_emit.
  now destruct (remote w rq).
Qed.

Lemma json_of_eq (r : response) : json_of r = ([], response_json r).
Proof. unfold json_of. now destruct (response_json r). Qed.

(** The [try] block sends the request and then either returns the served
    text or raises; it does nothing else. *)
Lemma explain_try_cases w article result max_tokens temperature :
  let rq := hf_request w article result max_tokens temperature in
  match served (remote w rq) with
  | Some v =>
    explain_try w article result max_tokens temperature
    = ([EvPost rq], Value (v, true))
  | None =>
    exists e, explain_try w article result max_tokens temperature
              = ([EvPost rq], Raised e)
  end.
Proof.
  intros rq. rewrite explain_try_read, requests_post_eq. fold rq.
  unfold served.
  destruct (remote w rq) as [resp | e]; [ | now exists e ].
  rewrite bind_value, json_of_eq.
  destruct (response_json resp) as [data | e]; [ | now exists e ].
  rewrite bind_value.
  pose proof (read_data_cases data) as Hd.
  destruct (generated_text_of data) as [v | ].
  - now rewrite Hd.
  - destruct Hd as [e ->]. now exists e.
Qed.

(** The whole function: one request, then the served text tagged
    [True], or a warning and the canned text tagged [False]. *)
Lemma explain_cases w article result max_tokens temperature :
  let rq := hf_request w article result
              (default 500 max_tokens) (default 0.7%float temperature) in
  match served (remote w rq) with
  | Some v =>
    explain_with_huggingface w article result max_tokens temperature
    = ([EvExplain article result; EvPost rq], Value (v, true))
  | None =>
    exists e,
      explain_with_huggingface w article result max_tokens temperature
      = ([EvExplain article result; EvPost rq; EvWarning (ApiFailed e)],
         Value (PStr (fallback_reasoning result), false))
  end.
Proof.
  intros rq. unfold explain_with_huggingface. rewrite bind_emit.
  pose proof (explain_try_cases w article result
                (default 500 max_tokens) (default 0.7%float temperature)) as Ht.
  fold rq in Ht. cbv zeta in Ht.
  destruct (served (remote w rq)) as [v | ].
  - now rewrite Ht.
  - destruct Ht as [e ->]. exists e.
    rewrite try_except_raised. unfold explain_except.
    now rewrite bind_emit.
Qed.

(* ===================================================================== *)
(** ** The request sent to the endpoint *)
(* ===================================================================== *)

Lemma posts_of_explain w article result max_tokens temperature :
  posts (trace (explain_with_huggingface w article result max_tokens temperature))
  = [ hf_request w article result
        (default 500 max_tokens) (default 0.7%float temperature) ].
Proof.
  pose proof (explain_cases w article result max_tokens temperature) as H.
  cbv zeta in H.
  destruct (served _) as [v | ]; [ | destruct H as [e H] ]; now rewrite H.
Qed.

(** C8: every execution of [explain_with_huggingface] sends exactly one
    request; it is a POST to the fixed URL with the header
    [Authorization: Bearer <secret>], the JSON body
    [{inputs: prompt, parameters: {max_new_tokens, temperature}}] built
    from the arguments, and the timeout 60.  When the caller leaves the
    generation controls out, they are 500 and 0.7. *)
Theorem explain_request_shape (w : world) (article : pystr) (result : Z) :
  let secret := secrets_get w (u "HF_API_KEY") (u "") in
  (forall max_tokens temperature,
      posts (trace (explain_with_huggingface w article result
                      (Some max_tokens) (Some temperature)))
      = [ described_request secret (prompt article result) max_tokens temperature ])
  /\ posts (trace (explain_with_huggingface w article result None None))
     = [ described_request secret (prompt article result) 500 0.7%float ].
Proof.
  split; intros; now rewrite posts_of_explain.
Qed.

(* ===================================================================== *)
(** ** Outcomes of the explainer *)
(* ===================================================================== *)

Lemma explain_served (w : world) (article : pystr) (result : Z)
    (max_tokens : option Z) (temperature : option float) v :
  served (remote w (request_of w article result max_tokens temperature)) = Some v ->
  explain_with_huggingface w article result max_tokens temperature
  = ([EvExplain article result;
      EvPost (request_of w article result max_tokens temperature)],
     Value (v, true)).
Proof.
  intros Hs. pose proof (explain_cases w article result max_tokens temperature) as H.
  cbv zeta in H. fold (request_of w article result max_tokens temperature) in H.
  now rewrite Hs in H.
Qed.

Lemma explain_not_served (w : world) (article : pystr) (result : Z)
    (max_tokens : option Z) (temperature : option float) :
  served (remote w (request_of w article result max_tokens temperature)) = None ->
  exists e,
    explain_with_huggingface w article result max_tokens temperature
    = ([EvExplain article result;
        EvPost (request_of w article result max_tokens temperature);
        EvWarning (ApiFailed e)],
       Value (PStr (fallback_reasoning result), false)).
Proof.
  intros Hs. pose proof (explain_cases w article result max_tokens temperature) as H.
  cbv zeta in H. fold (request_of w article result max_tokens temperature) in H.
  now rewrite Hs in H.
Qed.

Lemma failure_not_served (answer : outcome response) :
  failure answer -> served answer = None.
Proof.
  destruct 1 as [ e | status m _ [err He] | status e | status m [err He]
                | status | status m rest Hg | status data Hd ];
    unfold served; simpl response_json; auto.
Qed.

Lemma fallback_reasoning_nonempty (result : Z) : fallback_reasoning result <> [].
Proof. unfold fallback_reasoning. now destruct (result =? 1). Qed.

(** C3: when the request is answered and the body parses as an array
    whose first element is an object with a [generated_text] string, the
    explanation is tagged REMOTE and its text is that string, unchanged.
    Nothing is asked of an [error] entry inside the element: the code does
    not look for one there. *)
Theorem explain_remote_verbatim (w : world) (article : pystr) (result : Z)
    (max_tokens : option Z) (temperature : option float)
    (resp : response) (m : gmap pystr pyval) (rest : list pyval) (text : pystr) :
  remote w (request_of w article result max_tokens temperature) = Value resp ->
  response_json resp = Value (PList (PDict m :: rest)) ->
  m !! u "generated_text" = Some (PStr text) ->
  explain w article result max_tokens temperature = Value (PStr text, REMOTE).
Proof.
  intros Hr Hj Hg. unfold explain.
  rewrite (explain_served w article result max_tokens temperature (PStr text));
    [ reflexivity | ].
  unfold served. now rewrite Hr, Hj.
Qed.

Lemma explain_remote_verbatim_witness :
  explain w_served article_rates 1 None None
  = Value (PStr (u "Both sources are named."), REMOTE).
Proof.
  apply (explain_remote_verbatim w_served article_rates 1 None None
           {| status_code := 200;
              response_json := Value (generated (u "Both sources are named.")) |}
           {[ u "generated_text" := PStr (u "Both sources are named.") ]} []);
    [ reflexivity | reflexivity | apply lookup_singleton_eq ].
Defined.

(** C4: when the body parses as an object that has an [error] entry, the
    explanation is the canned text for the label, tagged FALLBACK. *)
Theorem explain_error_object_fallback (w : world) (article : pystr) (result : Z)
    (max_tokens : option Z) (temperature : option float)
    (resp : response) (m : gmap pystr pyval) :
  remote w (request_of w article result max_tokens temperature) = Value resp ->
  response_json resp = Value (PDict m) ->
  is_Some (m !! u "error") ->
  explain w article result max_tokens temperature
  = Value (PStr (fallback_reasoning result), FALLBACK).
Proof.
  intros Hr Hj He. unfold explain.
  destruct (explain_not_served w article result max_tokens temperature) as [e ->];
    [ | reflexivity ].
  unfold served. now rewrite Hr, Hj.
Qed.

Lemma explain_error_object_fallback_witness :
  explain w_loading article_moon 0 None None
  = Value (PStr (fallback_reasoning 0), FALLBACK).
Proof.
  apply (explain_error_object_fallback w_loading article_moon 0 None None
           {| status_code := 503;
              response_json :=
                Value (PDict {[ u "error" := PStr (u "Model is currently loading") ]}) |}
           {[ u "error" := PStr (u "Model is currently loading") ]});
    [ reflexivity | reflexivity | ].
  exists (PStr (u "Model is currently loading")). apply lookup_singleton_eq.
Defined.

(** C5: whatever makes the exchange fail (the request raising, a
    rejected token, a body that is not JSON, an error object, an empty
    array, a first element without [generated_text], any other shape), the
    function has sent exactly one request and returns the canned text for
    the label, tagged FALLBACK; the cause only shows in the warning. *)
Theorem explain_failure_uniform (w : world) (article : pystr) (result : Z)
    (max_tokens : option Z) (temperature : option float) :
  failure (remote w (request_of w article result max_tokens temperature)) ->
  posts (trace (explain_with_huggingface w article result max_tokens temperature))
  = [ request_of w article result max_tokens temperature ]
  /\ explain w article result max_tokens temperature
     = Value (PStr (fallback_reasoning result), FALLBACK).
Proof.
  intros Hf. apply failure_not_served in Hf.
  unfold explain.
  destruct (explain_not_served w article result max_tokens temperature Hf) as [e ->].
  now split.
Qed.

Lemma explain_failure_uniform_witness :
  posts (trace (explain_with_huggingface w_offline article_moon 0 None None))
  = [ request_of w_offline article_moon 0 None None ]
  /\ explain w_offline article_moon 0 None None
     = Value (PStr (fallback_reasoning 0), FALLBACK).
Proof.
  apply (explain_failure_uniform w_offline article_moon 0 None None).
  apply network_failure.
Defined.

Lemma served_empty_text (rq : request) :
  served (remote w_empty_text rq) = Some (PStr []).
Proof. unfold served, w_empty_text, answering, generated. simpl. apply lookup_singleton_eq. Qed.

(** C2 as first stated fails where the service answers with an empty
    [generated_text]: the text returned is the empty string. *)
Lemma explain_text_can_be_empty :
  ~ returns_nonempty_text w_empty_text article_rates 1 None None.
Proof.
  intros (t & text & is_dynamic & H & s & -> & Hs).
  rewrite (explain_served _ _ _ _ _ _ (served_empty_text _)) in H.
  apply Hs. congruence.
Qed.

(** C2, amended: for every world, article, label and generation controls
    the function returns (no exception escapes) a text with a source tag,
    REMOTE or FALLBACK.  Tagged FALLBACK, the text is the canned text for
    the label, a non-empty string.  Tagged REMOTE, the text is the value
    the service put under [generated_text] in the first element of its
    array, whatever that value is. *)
Theorem explain_total (w : world) (article : pystr) (result : Z)
    (max_tokens : option Z) (temperature : option float) :
  exists text src,
    explain w article result max_tokens temperature = Value (text, src)
    /\ match src with
       | FALLBACK => text = PStr (fallback_reasoning result) /\ nonempty_str text
       | REMOTE =>
         served (remote w (request_of w article result max_tokens temperature))
         = Some text
       end.
Proof.
  unfold explain.
  destruct (served (remote w (request_of w article result max_tokens temperature)))
    as [v | ] eqn:Hs.
  - rewrite (explain_served _ _ _ _ _ _ Hs). exists v, REMOTE. now split.
  - destruct (explain_not_served _ _ _ _ _ Hs) as [e ->].
    exists (PStr (fallback_reasoning result)), FALLBACK.
    repeat split. exists (fallback_reasoning result).
    split; [ reflexivity | apply fallback_reasoning_nonempty ].
Qed.

Lemma explain_fallback_inv (w : world) (article : pystr) (result : Z)
    (max_tokens : option Z) (temperature : option float) (text : pyval) :
  explain w article result max_tokens temperature = Value (text, FALLBACK) ->
  text = PStr (fallback_reasoning result).
Proof.
  unfold explain.
  destruct (served (remote w (request_of w article result max_tokens temperature)))
    as [v | ] eqn:Hs.
  - rewrite (explain_served _ _ _ _ _ _ Hs). discriminate.
  - destruct (explain_not_served _ _ _ _ _ Hs) as [e ->].
    unfold result_of, source_of. cbn [snd]. congruence.
Qed.

Lemma fallback_reasoning_label (r1 r2 : Z) :
  (r1 =? 1) = (r2 =? 1) -> fallback_reasoning r1 = fallback_reasoning r2.
Proof. unfold fallback_reasoning. now intros ->. Qed.

(** C9: two calls that both end in the fallback branch with the same
    label return the same explanation, whatever the worlds, articles and
    generation controls. *)
Theorem fallback_deterministic (w1 w2 : world) (article1 article2 : pystr)
    (result1 result2 : Z) (max_tokens1 max_tokens2 : option Z)
    (temperature1 temperature2 : option float) (text1 text2 : pyval) :
  (result1 =? 1) = (result2 =? 1) ->
  explain w1 article1 result1 max_tokens1 temperature1 = Value (text1, FALLBACK) ->
  explain w2 article2 result2 max_tokens2 temperature2 = Value (text2, FALLBACK) ->
  (text1, FALLBACK) = (text2, FALLBACK).
Proof.
  intros Hl H1 H2.
  apply explain_fallback_inv in H1, H2. subst.
  now rewrite (fallback_reasoning_label _ _ Hl).
Qed.

Lemma explain_offline (w : world) (msg : pystr) (article : pystr) (result : Z)
    (max_tokens : option Z) (temperature : option float) :
  remote w = (fun _ => Raised (RequestException msg)) ->
  explain w article result max_tokens temperature
  = Value (PStr (fallback_reasoning result), FALLBACK).
Proof.
  intros Hr. unfold explain.
  destruct (explain_not_served w article result max_tokens temperature) as [e ->];
    [ now rewrite Hr | reflexivity ].
Qed.

Lemma fallback_deterministic_witness :
  (PStr (fallback_reasoning 0), FALLBACK) = (PStr (fallback_reasoning 2), FALLBACK).
Proof.
  apply (fallback_deterministic w_offline w_other_class article_moon article_rates
           0 2 None (Some 64) None (Some 0.2%float)).
  - reflexivity.
  - now apply (explain_offline w_offline (u "Connection refused")).
  - now apply (explain_offline w_other_class (u "Read timed out.")).
Defined.

(* ===================================================================== *)
(** ** A missing credential *)
(* ===================================================================== *)

(** Without the credential the header is the bare scheme [Bearer ]. *)
Lemma absent_credential_header (w : world) :
  credential_absent w -> auth_headers w = {[ u "Authorization" := u "Bearer " ]}.
Proof.
  unfold credential_absent, auth_headers, secrets_get. intros ->.
  unfold default. now rewrite app_nil_r.
Qed.


Lemma served_nokey (rq : request) :
  served (remote w_nokey_served rq)
  = Some (PStr (u "The article cites official figures.")).
Proof. unfold served, w_nokey_served, answering, generated. simpl. apply lookup_singleton_eq. Qed.

(** C1: the code at an input where the claim fails.  No credential is
    configured; the request goes out with the header [Bearer ] and, the
    endpoint having answered, the served text is returned with
    [is_dynamic = True]: the fallback path is not taken. *)
Theorem absent_credential_reaches_remote :
  credential_absent w_nokey_served
  /\ explain_with_huggingface w_nokey_served article_rates 1 None None
     = ([EvExplain article_rates 1;
         EvPost (described_request [] (prompt article_rates 1) 500 0.7%float)],
        Value (PStr (u "The article cites official figures."), true)).
Proof.
  assert (Ha : credential_absent w_nokey_served) by apply lookup_empty.
  split; [ exact Ha | ].
  rewrite (explain_served _ _ _ _ _ _ (served_nokey _)).
  unfold request_of, hf_request, described_request.
  rewrite (absent_credential_header _ Ha). now rewrite app_nil_r.
Qed.

(* ===================================================================== *)
(** ** The canned texts *)
(* ===================================================================== *)

Lemma startswith_spec (s p : pystr) :
  startswith s p = true <-> exists k, s = p ++ k.
Proof.
  revert s. induction p as [ | c p IH ]; intros s; simpl.
  - split; [ intros _; now exists s | trivial ].
  - destruct s as [ | d s ].
    + split; [ discriminate | intros [k Hk]; discriminate ].
    + rewrite andb_true_iff, N.eqb_eq, IH. split.
      * intros [-> [k ->]]. now exists k.
      * intros [k Hk]. injection Hk as -> ->. split; [ reflexivity | now exists k ].
Qed.

Lemma contains_spec (s sub : pystr) :
  contains s sub = true <-> exists a b, s = a ++ sub ++ b.
Proof.
  induction s as [ | d s IH ]; simpl; rewrite orb_true_iff, startswith_spec.
  - split.
    + intros [[k Hk] | H]; [ | discriminate ]. now exists [], k.
    + intros (a & b & H). left.
      destruct a; [ now exists b | discriminate ].
  - rewrite IH. split.
    + intros [[k Hk] | (a & b & ->)]; [ now exists [], k | now exists (d :: a), b ].
    + intros (a & b & H). destruct a as [ | d' a ].
      * left. now exists b.
      * right. injection H as -> ->. now exists a, b.
Qed.

(** The two canned texts have the sections the scenarios look for. *)
Lemma reasoning_real_sections :
  startswith reasoning_real (u "1. Summary") = true
  /\ contains reasoning_real (u "Likely real") = true.
Proof. split; vm_compute; reflexivity. Qed.

Lemma reasoning_fake_sections :
  startswith reasoning_fake (u "1. Summary") = true
  /\ contains reasoning_fake (u "Likely fake") = true.
Proof. split; vm_compute; reflexivity. Qed.

(** Whenever the fallback branch is the one taken, the text is the one
    for the label. *)
Lemma fallback_text_by_label (w : world) (article : pystr) (result : Z)
    (max_tokens : option Z) (temperature : option float) (text : pyval) :
  explain w article result max_tokens temperature = Value (text, FALLBACK) ->
  text = PStr (if result =? 1 then reasoning_real else reasoning_fake).
Proof. apply explain_fallback_inv. Qed.

(** C6: the code at an input where the scenario fails.  Label REAL, no
    credential configured, and the endpoint answers: the explanation is
    tagged REMOTE and its text is the served one, which does not start with
    [1. Summary]. *)
Theorem no_credential_scenario_served :
  credential_absent w_nokey_served
  /\ explain w_nokey_served article_rates 1 None None
     = Value (PStr (u "The article cites official figures."), REMOTE)
  /\ startswith (u "The article cites official figures.") (u "1. Summary") = false.
Proof.
  split; [ apply lookup_empty | split ].
  - unfold explain. now rewrite (explain_served _ _ _ _ _ _ (served_nokey _)).
  - vm_compute. reflexivity.
Qed.

(* ===================================================================== *)
(** ** The page *)
(* ===================================================================== *)

Lemma lstrip_blank (s : pystr) : forallb is_space s = true -> lstrip s = [].
Proof.
  induction s as [ | c s IH ]; simpl; [ reflexivity | ].
  rewrite andb_true_iff. intros [-> Hs]. now apply IH.
Qed.

Lemma strip_blank (s : pystr) : forallb is_space s = true -> strip s = [].
Proof. intros Hs. unfold strip, rstrip. now rewrite (lstrip_blank s Hs). Qed.

Lemma lstrip_nil_blank (s : pystr) : lstrip s = [] -> forallb is_space s = true.
Proof.
  induction s as [ | c s IH ]; simpl; [ reflexivity | ].
  destruct (is_space c); [ exact IH | discriminate ].
Qed.

Lemma lstrip_head (s : pystr) (c : N) (s' : pystr) :
  lstrip s = c :: s' -> is_space c = false.
Proof.
  induction s as [ | d s IH ]; simpl; [ discriminate | ].
  destruct (is_space d) eqn:Hd; [ exact IH | ].
  intros H. injection H as <- _. exact Hd.
Qed.

(** The page's test [not news_text.strip()] holds exactly of the texts
    made of whitespace only. *)
Lemma strip_nil_iff (s : pystr) : strip s = [] <-> forallb is_space s = true.
Proof.
  split; [ | apply strip_blank ].
  unfold strip, rstrip. intros H.
  apply lstrip_nil_blank.
  destruct (lstrip s) as [ | c s' ] eqn:Hl; [ reflexivity | exfalso ].
  apply (f_equal (@rev N)) in H. rewrite rev_involutive in H. simpl in H.
  apply lstrip_nil_blank in H.
  rewrite forallb_app in H. apply andb_true_iff in H as [_ H].
  simpl in H. rewrite (lstrip_head _ _ _ Hl) in H. discriminate.
Qed.

(** C7: when the text submitted with the button is empty or made of
    whitespace only, the page shows the input-required warning, the
    heading and the awaiting-input box, and does nothing else: the model
    is not called, the explainer is not called, no request is sent and no
    verdict is shown. *)
Theorem blank_input_rejected (w : world) (news_text : pystr) :
  forallb is_space news_text = true ->
  page w news_text true
  = ([EvWarning InputRequired;
      EvElement (Subheader (u "🏷️ Verdict & AI Reasoning"));
      EvElement AwaitingInput],
     Value tt).
Proof.
  intros Hb. unfold page. rewrite (strip_blank news_text Hb).
  reflexivity.
Qed.

Lemma blank_input_rejected_witness :
  page w_served [32; 10; 9; 160; 8195]%N true
  = ([EvWarning InputRequired;
      EvElement (Subheader (u "🏷️ Verdict & AI Reasoning"));
      EvElement AwaitingInput],
     Value tt).
Proof.
  apply (blank_input_rejected w_served [32; 10; 9; 160; 8195]%N).
  reflexivity.
Defined.

Lemma verdicts_app (t1 t2 : list event) :
  verdicts (t1 ++ t2) = verdicts t1 ++ verdicts t2.
Proof.
  induction t1 as [ | ev t1 IH ]; simpl; [ reflexivity | ].
  destruct ev as [ | | | | [ | | | | ] ]; simpl; now rewrite ?IH.
Qed.

Lemma trace_bind {A B} (m : Py A) (k : A -> Py B) :
  trace (bind m k)
  = trace m ++ match result_of m with
               | Value a => trace (k a)
               | Raised _ => []
               end.
Proof.
  destruct m as [t [a | e]]; unfold bind, trace, result_of; simpl.
  - now destruct (k a).
  - now rewrite app_nil_r.
Qed.

(** What follows the explainer on the page shows no verdict. *)
Lemma verdicts_after_explain (ai_bg : pystr) (answer : pyval * bool) :
  verdicts (trace (
    let '(explanation, is_dynamic) := answer in
    let* stripped := str_strip explanation in
    let lines := split_on 10 stripped in
    let formatted_html := concat (map paragraph lines) in
    let reasoning_label :=
      if is_dynamic then u "Dynamic AI reasoning (Hugging Face)"
      else u "Offline fallback reasoning" in
    let* _ := emit (EvElement (ReasoningBox ai_bg reasoning_label formatted_html)) in
    emit (EvElement ReadingTip))) = [].
Proof.
  destruct answer as [explanation is_dynamic].
  destruct explanation; reflexivity.
Qed.

Lemma verdicts_explain (w : world) (article : pystr) (result : Z)
    (max_tokens : option Z) (temperature : option float) :
  verdicts (trace (explain_with_huggingface w article result max_tokens temperature)) = [].
Proof.
  pose proof (explain_cases w article result max_tokens temperature) as H.
  cbv zeta in H.
  destruct (served _) as [v | ]; [ | destruct H as [e H] ]; now rewrite H.
Qed.

Lemma predict_fake_news_eq (w : world) (article : pystr) :
  predict_fake_news w article = ([EvPredict article], Value (model_predict w article)).
Proof. reflexivity. Qed.

Lemma trace_bind_value {A B} t (a : A) (k : A -> Py B) :
  trace (bind (t, Value a) k) = t ++ trace (k a).
Proof. now rewrite bind_value. Qed.

Lemma trace_bind_emit {B} (ev : event) (k : unit -> Py B) :
  trace (bind (emit ev) k) = ev :: trace (k tt).
Proof. now rewrite bind_emit. Qed.

(** For a text that is not blank the page shows one verdict: the label
    of the model's output. *)
Lemma page_verdicts (w : world) (news_text : pystr) (clicked : bool) :
  strip news_text <> [] ->
  verdicts (trace (page w news_text clicked)) = [ label_text (model_predict w news_text) ].
Proof.
  intros Hn. unfold page.
  destruct (strip news_text) as [ | c s ]; [ congruence | ].
  cbn [str_is_empty].
  replace (if clicked then ret tt else ret tt) with (ret tt : Py unit)
    by now destruct clicked.
  rewrite bind_ret, trace_bind_emit. cbn [verdicts].
  rewrite predict_fake_news_eq, trace_bind_value. cbn [app verdicts].
  rewrite !trace_bind_emit. cbn [verdicts]. f_equal.
  rewrite trace_bind, verdicts_app, verdicts_explain.
  destruct (result_of _) as [answer | e]; [ | reflexivity ].
  apply verdicts_after_explain.
Qed.

Lemma label_text_one (output : Z) : output = 1 -> label_text output = u "REAL".
Proof. now intros ->. Qed.

Lemma label_text_other (output : Z) : output <> 1 -> label_text output = u "FAKE".
Proof. intros H. unfold label_text. now rewrite (proj2 (Z.eqb_neq output 1) H). Qed.

Lemma fallback_reasoning_one (output : Z) :
  output = 1 -> fallback_reasoning output = reasoning_real.
Proof. now intros ->. Qed.

Lemma fallback_reasoning_other (output : Z) :
  output <> 1 -> fallback_reasoning output = reasoning_fake.
Proof. intros H. unfold fallback_reasoning. now rewrite (proj2 (Z.eqb_neq output 1) H). Qed.

(** C10: for a text that is not blank, the model's output decides by
    the single test [output == 1].  When it is 1 the verdict shown is REAL
    and an explanation that falls back is the real-label text; for every
    other output the verdict shown is FAKE and an explanation that falls
    back is the fake-label text. *)
Theorem verdict_branches_on_one (w : world) (news_text : pystr) (clicked : bool) :
  strip news_text <> [] ->
  (model_predict w news_text = 1 ->
   verdicts (trace (page w news_text clicked)) = [ u "REAL" ]
   /\ forall text : pyval,
        explain w news_text (model_predict w news_text) None None
        = Value (text, FALLBACK) ->
        text = PStr reasoning_real)
  /\ (model_predict w news_text <> 1 ->
      verdicts (trace (page w news_text clicked)) = [ u "FAKE" ]
      /\ forall text : pyval,
           explain w news_text (model_predict w news_text) None None
           = Value (text, FALLBACK) ->
           text = PStr reasoning_fake).
Proof.
  intros Hn. rewrite (page_verdicts w news_text clicked Hn).
  split; intros Ho; (split; [ | intros text Ht; apply explain_fallback_inv in Ht; subst text ]).
  - now rewrite label_text_one.
  - now rewrite fallback_reasoning_one.
  - now rewrite label_text_other.
  - now rewrite fallback_reasoning_other.
Qed.

Lemma verdict_branches_on_one_witness :
  (verdicts (trace (page w_offline_real article_rates true)) = [ u "REAL" ]
   /\ forall text : pyval,
        explain w_offline_real article_rates 1 None None = Value (text, FALLBACK) ->
        text = PStr reasoning_real)
  /\ (verdicts (trace (page w_other_class article_moon true)) = [ u "FAKE" ]
      /\ forall text : pyval,
           explain w_other_class article_moon 2 None None = Value (text, FALLBACK) ->
           text = PStr reasoning_fake).
Proof.
  assert (Hr : strip article_rates <> []) by (vm_compute; discriminate).
  assert (Hm : strip article_moon <> []) by (vm_compute; discriminate).
  split.
  - exact (proj1 (verdict_branches_on_one w_offline_real article_rates true Hr)
             eq_refl).
  - refine (proj2 (verdict_branches_on_one w_other_class article_moon true Hm) _).
    discriminate.
Defined.

(* ===================================================================== *)
(** ** Worked examples *)
(* ===================================================================== *)

Example decode_check_mark : u "✅" = [9989%N].
Proof. reflexivity. Qed.

Example strip_example : strip (u "  rates cut
 ") = u "rates cut".
Proof. vm_compute. reflexivity. Qed.

Example split_example : split_on 10 (u "1. Summary
2. Tone") = [u "1. Summary"; u "2. Tone"].
Proof. vm_compute. reflexivity. Qed.

(** An error object: the warning carries the service's message. *)
Example explain_loading :
  explain_with_huggingface w_loading article_moon 0 None None
  = ([EvExplain article_moon 0;
      EvPost (request_of w_loading article_moon 0 None None);
      EvWarning (ApiFailed (Exception (PStr (u "Model is currently loading"))))],
     Value (PStr reasoning_fake, false)).
Proof. vm_compute. reflexivity. Qed.

(** An empty array: [data[0]] raises [IndexError], which is caught. *)
Example explain_empty_array :
  explain_with_huggingface w_empty_array article_moon 0 None None
  = ([EvExplain article_moon 0;
      EvPost (request_of w_empty_array article_moon 0 None None);
      EvWarning (ApiFailed IndexError)],
     Value (PStr reasoning_fake, false)).
Proof. vm_compute. reflexivity. Qed.

(** A served [null] is returned as it is, tagged REMOTE; the page then
    fails on [explanation.strip()]. *)
Example explain_null_text :
  explain w_null_text article_rates 1 None None = Value (PNone, REMOTE).
Proof. vm_compute. reflexivity. Qed.

Example page_null_text :
  result_of (page w_null_text article_rates true) = Raised AttributeError.
Proof. vm_compute. reflexivity. Qed.

(* ===================================================================== *)
(** ** The page, end to end *)
(* ===================================================================== *)

(** A run of the page on a text that is not blank, in terms of what the
    explainer did. *)
Lemma page_nonblank_eq (w : world) (news_text : pystr) (clicked : bool) :
  strip news_text <> [] ->
  page w news_text clicked =
  match explain_with_huggingface w news_text (model_predict w news_text) None None with
  | (t, Value (PStr s, is_dynamic)) =>
    (page_head w news_text ++ t
       ++ [ EvElement (reasoning_box (model_predict w news_text) is_dynamic s);
            EvElement ReadingTip ],
     Value tt)
  | (t, Value (_, _)) => (page_head w news_text ++ t, Raised AttributeError)
  | (t, Raised e) => (page_head w news_text ++ t, Raised e)
  end.
Proof.
  intros Hn. unfold page.
  destruct (strip news_text) as [ | c s ]; [ congruence | ].
  cbn [str_is_empty].
  replace (if clicked then ret tt else ret tt) with (ret tt : Py unit)
    by now destruct clicked.
  rewrite bind_ret, bind_emit, predict_fake_news_eq, bind_value.
  rewrite !bind_emit.
  destruct (explain_with_huggingface _ _ _ _ _) as [t [[v d] | e]].
  - rewrite bind_value.
    destruct v; unfold str_strip; rewrite ?bind_raise, ?bind_ret, ?bind_emit;
      unfold trace, result_of, raise, emit, page_head; cbn [fst snd app];
      rewrite ?app_nil_r; reflexivity.
  - rewrite bind_raised. reflexivity.
Qed.

Lemma page_blank_eq (w : world) (news_text : pystr) (clicked : bool) :
  forallb is_space news_text = true ->
  page w news_text clicked
  = ((if clicked then [EvWarning InputRequired] else [])
       ++ [ EvElement (Subheader (u "🏷️ Verdict & AI Reasoning"));
            EvElement AwaitingInput ],
     Value tt).
Proof.
  intros Hb. unfold page. rewrite (strip_blank news_text Hb).
  now destruct clicked.
Qed.

Lemma nonblank_strip (news_text : pystr) :
  forallb is_space news_text = false -> strip news_text <> [].
Proof. intros Hf Hs. apply strip_nil_iff in Hs. congruence. Qed.

Lemma page_fallback_eq (w : world) (news_text : pystr) (clicked : bool) :
  strip news_text <> [] ->
  served (remote w (request_of w news_text (model_predict w news_text) None None)) = None ->
  exists e,
    page w news_text clicked
    = (page_head w news_text
         ++ [ EvExplain news_text (model_predict w news_text);
              EvPost (request_of w news_text (model_predict w news_text) None None);
              EvWarning (ApiFailed e);
              EvElement (reasoning_box (model_predict w news_text) false
                           (fallback_reasoning (model_predict w news_text)));
              EvElement ReadingTip ],
       Value tt).
Proof.
  intros Hn Hs. rewrite (page_nonblank_eq w news_text clicked Hn).
  destruct (explain_not_served _ _ _ _ _ Hs) as [e ->]. now exists e.
Qed.

Lemma page_served_eq (w : world) (news_text : pystr) (clicked : bool) (v : pyval) :
  strip news_text <> [] ->
  served (remote w (request_of w news_text (model_predict w news_text) None None)) = Some v ->
  page w news_text clicked
  = match v with
    | PStr s =>
      (page_head w news_text
         ++ [ EvExplain news_text (model_predict w news_text);
              EvPost (request_of w news_text (model_predict w news_text) None None);
              EvElement (reasoning_box (model_predict w news_text) true s);
              EvElement ReadingTip ],
       Value tt)
    | _ =>
      (page_head w news_text
         ++ [ EvExplain news_text (model_predict w news_text);
              EvPost (request_of w news_text (model_predict w news_text) None None) ],
       Raised AttributeError)
    end.
Proof.
  intros Hn Hs. rewrite (page_nonblank_eq w news_text clicked Hn).
  rewrite (explain_served _ _ _ _ _ _ Hs). now destruct v.
Qed.

(** X1: on a text that is not blank the button changes nothing: the
    page classifies, explains and renders on every run, clicked or not. *)
Theorem page_ignores_button (w : world) (news_text : pystr) :
  forallb is_space news_text = false ->
  page w news_text true = page w news_text false.
Proof.
  intros Hf. apply nonblank_strip in Hf.
  now rewrite !(page_nonblank_eq w news_text _ Hf).
Qed.

Lemma page_ignores_button_witness :
  page w_offline article_moon true = page w_offline article_moon false.
Proof.
  apply (page_ignores_button w_offline article_moon).
  vm_compute. reflexivity.
Defined.

(** X2: a blank text with the button not pressed shows the heading and
    the awaiting-input box only; the input-required warning belongs to
    the click. *)
Theorem page_idle_blank (w : world) (news_text : pystr) :
  forallb is_space news_text = true ->
  page w news_text false
  = ([ EvElement (Subheader (u "🏷️ Verdict & AI Reasoning"));
       EvElement AwaitingInput ],
     Value tt).
Proof. intros Hb. now rewrite (page_blank_eq w news_text false Hb). Qed.

Lemma page_idle_blank_witness :
  page w_served [] false
  = ([ EvElement (Subheader (u "🏷️ Verdict & AI Reasoning"));
       EvElement AwaitingInput ],
     Value tt).
Proof. apply (page_idle_blank w_served []). reflexivity. Defined.


(** X4: when the exchange with the endpoint fails, in any of the ways
    of the taxonomy, the page still completes: after the verdict it shows
    the warning, then the canned text for the model's output, one
    paragraph per line, under the label [Offline fallback reasoning], and
    the reading tip. *)
Theorem page_fallback_shown (w : world) (news_text : pystr) (clicked : bool) :
  forallb is_space news_text = false ->
  failure (remote w (request_of w news_text (model_predict w news_text) None None)) ->
  exists e,
    page w news_text clicked
    = (page_head w news_text
         ++ [ EvExplain news_text (model_predict w news_text);
              EvPost (request_of w news_text (model_predict w news_text) None None);
              EvWarning (ApiFailed e);
              EvElement (reasoning_box (model_predict w news_text) false
                           (fallback_reasoning (model_predict w news_text)));
              EvElement ReadingTip ],
       Value tt).
Proof.
  intros Hb Hf. apply nonblank_strip in Hb. apply failure_not_served in Hf.
  exact (page_fallback_eq w news_text clicked Hb Hf).
Qed.

Lemma page_fallback_shown_witness :
  exists e,
    page w_offline article_moon true
    = (page_head w_offline article_moon
         ++ [ EvExplain article_moon (model_predict w_offline article_moon);
              EvPost (request_of w_offline article_moon
                        (model_predict w_offline article_moon) None None);
              EvWarning (ApiFailed e);
              EvElement (reasoning_box (model_predict w_offline article_moon) false
                           (fallback_reasoning (model_predict w_offline article_moon)));
              EvElement ReadingTip ],
       Value tt).
Proof.
  apply (page_fallback_shown w_offline article_moon true).
  - vm_compute. reflexivity.
  - apply network_failure.
Defined.

(** X5: when the endpoint serves a string, the page shows it under the
    label [Dynamic AI reasoning (Hugging Face)]: the string is stripped,
    split at newlines, and each line is wrapped in a paragraph as it is,
    with no escaping of markup; no warning is shown. *)
Theorem page_remote_text_shown (w : world) (news_text : pystr) (clicked : bool)
    (resp : response) (m : gmap pystr pyval) (rest : list pyval) (text : pystr) :
  forallb is_space news_text = false ->
  remote w (request_of w news_text (model_predict w news_text) None None) = Value resp ->
  response_json resp = Value (PList (PDict m :: rest)) ->
  m !! u "generated_text" = Some (PStr text) ->
  page w news_text clicked
  = (page_head w news_text
       ++ [ EvExplain news_text (model_predict w news_text);
            EvPost (request_of w news_text (model_predict w news_text) None None);
            EvElement (ReasoningBox
                         (if model_predict w news_text =? 1
                          then u "#e6f9e6" else u "#ffe6e6")
                         (u "Dynamic AI reasoning (Hugging Face)")
                         (concat (map paragraph (split_on 10 (strip text)))));
            EvElement ReadingTip ],
     Value tt).
Proof.
  intros Hb Hr Hj Hg. apply nonblank_strip in Hb.
  rewrite (page_served_eq w news_text clicked (PStr text) Hb); [ reflexivity | ].
  unfold served. now rewrite Hr, Hj.
Qed.

Lemma page_remote_text_shown_witness :
  page w_two_lines article_rates true
  = (page_head w_two_lines article_rates
       ++ [ EvExplain article_rates (model_predict w_two_lines article_rates);
            EvPost (request_of w_two_lines article_rates
                      (model_predict w_two_lines article_rates) None None);
            EvElement (ReasoningBox
                         (if model_predict w_two_lines article_rates =? 1
                          then u "#e6f9e6" else u "#ffe6e6")
                         (u "Dynamic AI reasoning (Hugging Face)")
                         (concat (map paragraph (split_on 10 (strip (u " <b>Sourced</b>
Neutral tone "))))));
            EvElement ReadingTip ],
     Value tt).
Proof.
  apply (page_remote_text_shown w_two_lines article_rates true
           {| status_code := 200;
              response_json := Value (generated (u " <b>Sourced</b>
Neutral tone ")) |}
           {[ u "generated_text" := PStr (u " <b>Sourced</b>
Neutral tone ") ]} []).
  - vm_compute. reflexivity.
  - reflexivity.
  - reflexivity.
  - apply lookup_singleton_eq.
Defined.

(** The markup of the served text reaches the page as it was sent. *)
Example two_lines_html :
  concat (map paragraph (split_on 10 (strip (u " <b>Sourced</b>
Neutral tone "))))
  = u "<p style='margin:0; font-weight:bold; padding:2px 0;'><b>Sourced</b></p><p style='margin:0; font-weight:bold; padding:2px 0;'>Neutral tone</p>".
Proof. vm_compute. reflexivity. Qed.

(** X6: when what the endpoint serves under [generated_text] is not a
    string, the explainer hands it on and the page raises
    [AttributeError] at [explanation.strip()]: the verdict has been shown,
    the reasoning box and the reading tip are not. *)
Theorem page_raises_on_non_string (w : world) (news_text : pystr) (clicked : bool)
    (resp : response) (m : gmap pystr pyval) (rest : list pyval) (v : pyval) :
  forallb is_space news_text = false ->
  remote w (request_of w news_text (model_predict w news_text) None None) = Value resp ->
  response_json resp = Value (PList (PDict m :: rest)) ->
  m !! u "generated_text" = Some v ->
  is_str v = false ->
  page w news_text clicked
  = (page_head w news_text
       ++ [ EvExplain news_text (model_predict w news_text);
            EvPost (request_of w news_text (model_predict w news_text) None None) ],
     Raised AttributeError).
Proof.
  intros Hb Hr Hj Hg Hv. apply nonblank_strip in Hb.
  rewrite (page_served_eq w news_text clicked v Hb).
  - destruct v; try reflexivity. discriminate.
  - unfold served. now rewrite Hr, Hj.
Qed.

Lemma page_raises_on_non_string_witness :
  page w_null_text article_rates false
  = (page_head w_null_text article_rates
       ++ [ EvExplain article_rates (model_predict w_null_text article_rates);
            EvPost (request_of w_null_text article_rates
                      (model_predict w_null_text article_rates) None None) ],
     Raised AttributeError).
Proof.
  apply (page_raises_on_non_string w_null_text article_rates false
           {| status_code := 200;
              response_json := Value (PList [PDict {[ u "generated_text" := PNone ]}]) |}
           {[ u "generated_text" := PNone ]} [] PNone).
  - vm_compute. reflexivity.
  - reflexivity.
  - reflexivity.
  - apply lookup_singleton_eq.
  - reflexivity.
Defined.

(** X7: how a run of the page ends.  It raises, and then it is
    [AttributeError], exactly when the text is not blank and the endpoint
    served something that is not a string under [generated_text]; in every
    other case it completes. *)
Theorem page_outcome (w : world) (news_text : pystr) (clicked : bool) :
  result_of (page w news_text clicked)
  = if forallb is_space news_text then Value tt
    else match served (remote w (request_of w news_text
                                   (model_predict w news_text) None None)) with
         | Some v => if is_str v then Value tt else Raised AttributeError
         | None => Value tt
         end.
Proof.
  destruct (forallb is_space news_text) eqn:Hb.
  - now rewrite (page_blank_eq w news_text clicked Hb).
  - apply nonblank_strip in Hb.
    destruct (served _) as [v | ] eqn:Hs.
    + rewrite (page_served_eq w news_text clicked v Hb Hs). now destruct v.
    + now destruct (page_fallback_eq w news_text clicked Hb Hs) as [e ->].
Qed.

(* ===================================================================== *)
(** ** What the explainer reports *)
(* ===================================================================== *)

(** When the parsed body makes lines 87-90 raise [e], the explainer warns
    with [e] and falls back. *)
Lemma explain_body_raises (w : world) (article : pystr) (result : Z)
    (max_tokens : option Z) (temperature : option float)
    (resp : response) (data : pyval) (e : exn) :
  remote w (request_of w article result max_tokens temperature) = Value resp ->
  response_json resp = Value data ->
  read_data data = raise e ->
  explain_with_huggingface w article result max_tokens temperature
  = ([ EvExplain article result;
       EvPost (request_of w article result max_tokens temperature);
       EvWarning (ApiFailed e) ],
     Value (PStr (fallback_reasoning result), false)).
Proof.
  intros Hr Hj Hd. unfold explain_with_huggingface. rewrite bind_emit.
  rewrite explain_try_read, requests_post_eq.
  fold (request_of w article result max_tokens temperature). rewrite Hr.
  rewrite bind_value, json_of_eq, Hj, bind_value, Hd.
  unfold trace, result_of, raise. cbn [fst snd app].
  rewrite try_except_raised. unfold explain_except. now rewrite bind_emit.
Qed.

Lemma explain_library_raises (w : world) (article : pystr) (result : Z)
    (max_tokens : option Z) (temperature : option float) (e : exn) :
  remote w (request_of w article result max_tokens temperature) = Raised e
  \/ (exists resp,
        remote w (request_of w article result max_tokens temperature) = Value resp
        /\ response_json resp = Raised e) ->
  explain_with_huggingface w article result max_tokens temperature
  = ([ EvExplain article result;
       EvPost (request_of w article result max_tokens temperature);
       EvWarning (ApiFailed e) ],
     Value (PStr (fallback_reasoning result), false)).
Proof.
  intros H. unfold explain_with_huggingface. rewrite bind_emit.
  rewrite explain_try_read, requests_post_eq.
  fold (request_of w article result max_tokens temperature).
  destruct H as [Hr | (resp & Hr & Hj)]; rewrite Hr.
  - rewrite bind_raised, try_except_raised. unfold explain_except.
    now rewrite bind_emit.
  - rewrite bind_value, json_of_eq, Hj, bind_raised.
    unfold trace, result_of. cbn [fst snd app].
    rewrite try_except_raised. unfold explain_except. now rewrite bind_emit.
Qed.

Lemma read_data_error (m : gmap pystr pyval) (err : pyval) :
  m !! u "error" = Some err -> read_data (PDict m) = raise (Exception err).
Proof.
  intros He. unfold read_data, is_dict_with, getitem_key. rewrite He.
  rewrite bool_decide_eq_true_2 by eauto.
  now rewrite bind_ret, !bind_raise.
Qed.

Lemma read_data_bare_object (m : gmap pystr pyval) :
  m !! u "error" = None -> read_data (PDict m) = raise (KeyError (PInt 0)).
Proof.
  intros He. unfold read_data, is_dict_with. rewrite He.
  rewrite bool_decide_eq_false_2 by (intros [? ?]; congruence).
  now rewrite bind_ret.
Qed.

Lemma read_data_missing_field (m : gmap pystr pyval) (rest : list pyval) :
  m !! u "generated_text" = None ->
  read_data (PList (PDict m :: rest)) = raise (KeyError (PStr (u "generated_text"))).
Proof.
  intros Hg. unfold read_data, is_dict_with, getitem_0, getitem_key.
  rewrite !bind_ret, Hg. now rewrite bind_raise.
Qed.

(** X8: the explainer shows a warning exactly when it falls back: one
    warning with the canned text, none with a served text. *)
Theorem warning_iff_fallback (w : world) (article : pystr) (result : Z)
    (max_tokens : option Z) (temperature : option float) :
  exists text is_dynamic,
    result_of (explain_with_huggingface w article result max_tokens temperature)
    = Value (text, is_dynamic)
    /\ length (warnings (trace (explain_with_huggingface w article result
                                   max_tokens temperature)))
       = (if is_dynamic then 0 else 1)%nat.
Proof.
  destruct (served (remote w (request_of w article result max_tokens temperature)))
    as [v | ] eqn:Hs.
  - rewrite (explain_served _ _ _ _ _ _ Hs). now exists v, true.
  - destruct (explain_not_served _ _ _ _ _ Hs) as [e ->].
    now exists (PStr (fallback_reasoning result)), false.
Qed.

(** X9: an exception raised by [requests.post] or by [response.json()]
    is the one the warning reports, unchanged. *)
Theorem library_exception_reported (w : world) (article : pystr) (result : Z)
    (max_tokens : option Z) (temperature : option float) (e : exn) :
  remote w (request_of w article result max_tokens temperature) = Raised e
  \/ (exists resp,
        remote w (request_of w article result max_tokens temperature) = Value resp
        /\ response_json resp = Raised e) ->
  warnings (trace (explain_with_huggingface w article result max_tokens temperature))
  = [ ApiFailed e ].
Proof.
  intros H. now rewrite (explain_library_raises _ _ _ _ _ _ H).
Qed.

Lemma library_exception_reported_witness :
  warnings (trace (explain_with_huggingface w_malformed article_moon 0 None None))
  = [ ApiFailed (JSONDecodeError (u "Expecting value")) ].
Proof.
  apply (library_exception_reported w_malformed article_moon 0 None None).
  right.
  exists {| status_code := 502;
            response_json := Raised (JSONDecodeError (u "Expecting value")) |}.
  split; reflexivity.
Defined.

(** X10: when the body is an object with an [error] entry, the warning
    reports an [Exception] built from the value of that entry, the
    service's own message. *)
Theorem service_error_reported (w : world) (article : pystr) (result : Z)
    (max_tokens : option Z) (temperature : option float)
    (resp : response) (m : gmap pystr pyval) (err : pyval) :
  remote w (request_of w article result max_tokens temperature) = Value resp ->
  response_json resp = Value (PDict m) ->
  m !! u "error" = Some err ->
  warnings (trace (explain_with_huggingface w article result max_tokens temperature))
  = [ ApiFailed (Exception err) ].
Proof.
  intros Hr Hj He.
  now rewrite (explain_body_raises _ _ _ _ _ _ _ _ Hr Hj (read_data_error m err He)).
Qed.

Lemma service_error_reported_witness :
  warnings (trace (explain_with_huggingface w_loading article_moon 0 None None))
  = [ ApiFailed (Exception (PStr (u "Model is currently loading"))) ].
Proof.
  apply (service_error_reported w_loading article_moon 0 None None
           {| status_code := 503;
              response_json :=
                Value (PDict {[ u "error" := PStr (u "Model is currently loading") ]}) |}
           {[ u "error" := PStr (u "Model is currently loading") ]}).
  - reflexivity.
  - reflexivity.
  - apply lookup_singleton_eq.
Defined.

(** X11: an object body without [error] is not accepted either, even
    when it holds a [generated_text] entry: [data[0]] raises
    [KeyError(0)] and the explainer falls back. *)
Theorem bare_object_rejected (w : world) (article : pystr) (result : Z)
    (max_tokens : option Z) (temperature : option float)
    (resp : response) (m : gmap pystr pyval) :
  remote w (request_of w article result max_tokens temperature) = Value resp ->
  response_json resp = Value (PDict m) ->
  m !! u "error" = None ->
  explain_with_huggingface w article result max_tokens temperature
  = ([ EvExplain article result;
       EvPost (request_of w article result max_tokens temperature);
       EvWarning (ApiFailed (KeyError (PInt 0))) ],
     Value (PStr (fallback_reasoning result), false)).
Proof.
  intros Hr Hj He.
  exact (explain_body_raises _ _ _ _ _ _ _ _ Hr Hj (read_data_bare_object m He)).
Qed.

Lemma bare_object_rejected_witness :
  explain_with_huggingface w_bare_object article_moon 0 None None
  = ([ EvExplain article_moon 0;
       EvPost (request_of w_bare_object article_moon 0 None None);
       EvWarning (ApiFailed (KeyError (PInt 0))) ],
     Value (PStr (fallback_reasoning 0), false)).
Proof.
  apply (bare_object_rejected w_bare_object article_moon 0 None None
           {| status_code := 200;
              response_json :=
                Value (PDict {[ u "generated_text" := PStr (u "Both sources are named.") ]}) |}
           {[ u "generated_text" := PStr (u "Both sources are named.") ]}).
  - reflexivity.
  - reflexivity.
  - apply lookup_singleton_ne. vm_compute. discriminate.
Defined.

(** X12: an empty array makes [data[0]] raise [IndexError], and a first
    element that is an object without [generated_text] makes the lookup
    raise [KeyError('generated_text')]; the warning reports them. *)
Theorem missing_text_reported (w : world) (article : pystr) (result : Z)
    (max_tokens : option Z) (temperature : option float)
    (resp : response) (l : list pyval) :
  remote w (request_of w article result max_tokens temperature) = Value resp ->
  response_json resp = Value (PList l) ->
  match l with
  | [] => True
  | PDict m :: _ => m !! u "generated_text" = None
  | _ :: _ => False
  end ->
  warnings (trace (explain_with_huggingface w article result max_tokens temperature))
  = [ ApiFailed (match l with
                 | [] => IndexError
                 | _ :: _ => KeyError (PStr (u "generated_text"))
                 end) ].
Proof.
  intros Hr Hj Hl.
  destruct l as [ | first rest ].
  - now rewrite (explain_body_raises _ _ _ _ _ _ _ IndexError Hr Hj).
  - destruct first as [ | | | | | | m ]; try contradiction.
    now rewrite (explain_body_raises _ _ _ _ _ _ _ _ Hr Hj
                   (read_data_missing_field m rest Hl)).
Qed.

Lemma missing_text_reported_witness :
  warnings (trace (explain_with_huggingface w_missing_field article_moon 0 None None))
  = [ ApiFailed (KeyError (PStr (u "generated_text"))) ].
Proof.
  apply (missing_text_reported w_missing_field article_moon 0 None None
           {| status_code := 200;
              response_json :=
                Value (PList [PDict {[ u "summary_text" := PStr (u "Short.") ]}]) |}
           [PDict {[ u "summary_text" := PStr (u "Short.") ]}]).
  - reflexivity.
  - reflexivity.
  - apply lookup_singleton_ne. vm_compute. discriminate.
Defined.

(** X13: the HTTP status is never looked at.  Two worlds with the same
    secrets whose endpoints answer the request with the same body (or
    raise the same exception) make the explainer do and return the same,
    whatever the status codes. *)
Theorem status_code_ignored (w1 w2 : world) (article : pystr) (result : Z)
    (max_tokens : option Z) (temperature : option float) :
  secrets w1 = secrets w2 ->
  same_body (remote w1 (request_of w1 article result max_tokens temperature))
            (remote w2 (request_of w1 article result max_tokens temperature)) ->
  explain_with_huggingface w1 article result max_tokens temperature
  = explain_with_huggingface w2 article result max_tokens temperature.
Proof.
  intros Hsec Hb.
  assert (Hrq : request_of w2 article result max_tokens temperature
                = request_of w1 article result max_tokens temperature).
  { unfold request_of, hf_request, auth_headers, secrets_get. now rewrite Hsec. }
  unfold explain_with_huggingface. rewrite !bind_emit.
  rewrite !explain_try_read, !requests_post_eq.
  fold (request_of w1 article result max_tokens temperature).
  fold (request_of w2 article result max_tokens temperature).
  rewrite Hrq. unfold same_body in Hb.
  destruct (remote w1 _) as [r1 | e1], (remote w2 _) as [r2 | e2];
    try contradiction.
  - rewrite !bind_value, !json_of_eq. now rewrite Hb.
  - now subst e2.
Qed.

Lemma status_code_ignored_witness :
  explain_with_huggingface w_served article_rates 1 None None
  = explain_with_huggingface w_served_500 article_rates 1 None None.
Proof.
  apply (status_code_ignored w_served w_served_500 article_rates 1 None None);
    reflexivity.
Defined.


(* ===================================================================== *)
(** ** The lines of an explanation *)
(* ===================================================================== *)

Lemma split_on_nonempty (sep : N) (s : pystr) : split_on sep s <> [].
Proof.
  destruct s as [ | c s ]; simpl; [ discriminate | ].
  destruct (c =? sep)%N; [ discriminate | ].
  destruct (split_on sep s); discriminate.
Qed.

Lemma join_lines_cons (l : pystr) (ls : list pystr) :
  ls <> [] -> join_lines (l :: ls) = l ++ 10%N :: join_lines ls.
Proof. destruct ls; [ congruence | reflexivity ]. Qed.

(** X15: the split at newlines of lines 162-163 loses nothing: there is
    always at least one line, no line contains a newline, and the lines
    joined by newlines are the text that was split. *)
Theorem lines_round_trip (s : pystr) :
  split_on 10 s <> []
  /\ Forall (fun line => ~ In 10%N line) (split_on 10 s)
  /\ join_lines (split_on 10 s) = s.
Proof.
  split; [ apply split_on_nonempty | ].
  induction s as [ | c s IH ].
  - split; [ repeat constructor; auto | reflexivity ].
  - destruct IH as [IHf IHj]. simpl. destruct (c =? 10)%N eqn:Hc.
    + apply N.eqb_eq in Hc. subst c. split.
      * constructor; [ auto | exact IHf ].
      * rewrite join_lines_cons by apply split_on_nonempty.
        simpl. now rewrite IHj.
    + apply N.eqb_neq in Hc.
      pose proof (split_on_nonempty 10 s) as Hne.
      destruct (split_on 10 s) as [ | l ls ]; [ congruence | ].
      apply Forall_cons in IHf as [Hl Hls]. split.
      * constructor; [ | exact Hls ].
        intros [Hin | Hin]; [ congruence | exact (Hl Hin) ].
      * destruct ls as [ | l' ls ]; simpl in *; now rewrite <- IHj.
Qed.
